(** * The edit session of the photo editor (src/App.tsx)

    A shallow embedding of the [App] component's state and of its two
    handlers, [handleImageChange] and [handleSubmit], together with the two
    services the component imports ([fileToBase64] from ./utils/fileUtils and
    [editImageWithPrompt] from ./services/geminiService).

    Strings are JavaScript strings: sequences of UTF-16 code units.  The
    component's five [useState] cells form one record; a handler is a
    computation that updates the record, records every state setter and
    service call it performs, and may raise. *)

From Stdlib Require Import List NArith ZArith Lia Bool String Ascii.
From Stdlib.Strings Require Import Byte.
Import ListNotations.

Set Implicit Arguments.

(* ================================================================= *)
(** ** JavaScript strings *)

Definition CodeUnit := N.
Definition jsstring := list CodeUnit.

(** An ASCII literal as a JavaScript string. *)
Fixpoint lit (s : string) : jsstring :=
  match s with
  | EmptyString => []
  | String a r => N_of_ascii a :: lit r
  end.

(** ECMAScript's WhiteSpace and LineTerminator code points, the characters
    [String.prototype.trim] strips. *)
Definition isWhiteSpace (c : CodeUnit) : bool :=
  ((9 <=? c) && (c <=? 13)            (* TAB LF VT FF CR *)
   || (c =? 32)                        (* SPACE *)
   || (c =? 160)                       (* NO-BREAK SPACE *)
   || (c =? 5760)                      (* U+1680 *)
   || ((8192 <=? c) && (c <=? 8202))   (* U+2000 .. U+200A *)
   || (c =? 8232) || (c =? 8233)       (* U+2028 U+2029 *)
   || (c =? 8239) || (c =? 8287)       (* U+202F U+205F *)
   || (c =? 12288)                     (* U+3000 *)
   || (c =? 65279))%N.                 (* U+FEFF *)

Fixpoint trimStart (s : jsstring) : jsstring :=
  match s with
  | [] => []
  | c :: r => if isWhiteSpace c then trimStart r else s
  end.

Definition trimEnd (s : jsstring) : jsstring := rev (trimStart (rev s)).

Definition trim (s : jsstring) : jsstring := trimEnd (trimStart s).

(** Truthiness of a string value: only the empty string is falsy. *)
Definition truthy (s : jsstring) : bool :=
  match s with
  | [] => false
  | _ :: _ => true
  end.

(** Truthiness of a value that is an object or null. *)
Definition isSome {A} (o : option A) : bool :=
  match o with
  | Some _ => true
  | None => false
  end.

(** [v || d] where [v] is a string that may be undefined. *)
Definition orElse (v : option jsstring) (d : jsstring) : jsstring :=
  match v with
  | Some m => if truthy m then m else d
  | None => d
  end.

(* ================================================================= *)
(** ** Files and component state *)

(** A [File] chosen by the user: a binary blob with its declared media type. *)
Record File := mkFile {
  fileName : jsstring;
  fileType : jsstring;
  fileBytes : list byte
}.

(** What [fileToBase64] resolves to: [{ base64, mimeType }]. *)
Record Encoded := mkEncoded {
  base64 : jsstring;
  mimeType : jsstring
}.

(** The five [useState] cells of [App] (lines 30-34). *)
Record AppState := mkState {
  originalImageFile : option File;
  editedImage : option jsstring;
  prompt : jsstring;
  isLoading : bool;
  error : option jsstring
}.

(** State on first render. *)
Definition initialState : AppState :=
  {| originalImageFile := None; editedImage := None; prompt := [];
     isLoading := false; error := None |}.

(** What a handler does, in order: state setters and service calls. *)
Inductive Event :=
| SetOriginalImageFile (f : File)
| SetEditedImage (v : option jsstring)
| SetPrompt (p : jsstring)
| SetIsLoading (b : bool)
| SetError (e : option jsstring)
| CallFileToBase64 (f : File)
| CallEditImageWithPrompt (b64 mime instruction : jsstring).

Definition isCall (e : Event) : bool :=
  match e with
  | CallFileToBase64 _ | CallEditImageWithPrompt _ _ _ => true
  | _ => false
  end.

Definition applyEvent (s : AppState) (e : Event) : AppState :=
  match e with
  | SetOriginalImageFile f =>
      mkState (Some f) (editedImage s) (prompt s) (isLoading s) (error s)
  | SetEditedImage v =>
      mkState (originalImageFile s) v (prompt s) (isLoading s) (error s)
  | SetPrompt p =>
      mkState (originalImageFile s) (editedImage s) p (isLoading s) (error s)
  | SetIsLoading b =>
      mkState (originalImageFile s) (editedImage s) (prompt s) b (error s)
  | SetError m =>
      mkState (originalImageFile s) (editedImage s) (prompt s) (isLoading s) m
  | CallFileToBase64 _ | CallEditImageWithPrompt _ _ _ => s
  end.

Definition replay (s : AppState) (t : list Event) : AppState :=
  fold_left applyEvent t s.

(* ================================================================= *)
(** ** The imported services *)

(** The two imports of App.tsx, as an interface.  [Thrown] is what a
    rejected promise or a [throw] carries: any value, as the cast
    [e as Error] of line 71 checks nothing.  The component only reads its
    [message] (line 72): [message e] is that read, which yields the property
    (it may be missing or empty) or raises, as reading a property of null or
    of undefined does. *)
Class Services (Thrown : Type) := {
  message : Thrown -> Thrown + option jsstring;
  fileToBase64 : File -> Thrown + Encoded;
  editImageWithPrompt : jsstring -> jsstring -> jsstring -> Thrown + jsstring
}.

(* ================================================================= *)
(** ** Handler computations *)

(** A handler run: from the current state, an outcome (a raised value or a
    result), the new state, and the events performed in order. *)
Definition M (Thrown A : Type) : Type :=
  AppState -> (Thrown + A) * AppState * list Event.

Section Handlers.
Context {Thrown : Type}.
Local Abbreviation M := (M Thrown).

Definition ret {A} (a : A) : M A := fun s => (inr a, s, []).

Definition bind {A B} (m : M A) (f : A -> M B) : M B :=
  fun s =>
    let '(r, s1, t1) := m s in
    match r with
    | inl e => (inl e, s1, t1)
    | inr a => let '(r2, s2, t2) := f a s1 in (r2, s2, t1 ++ t2)
    end.

Definition get : M AppState := fun s => (inr s, s, []).

Definition emit (e : Event) : M unit := fun s => (inr tt, applyEvent s e, [e]).

(** Awaiting a promise that has settled with [r]. *)
Definition await {A} (r : Thrown + A) : M A := fun s => (r, s, []).

(** [try { body } catch (e) { handler e } finally { fin }]. *)
Definition tryCatchFinally {A} (body : M A) (handler : Thrown -> M A) (fin : M unit) : M A :=
  fun s =>
    let '(r, s1, t1) := body s in
    let '(r', s2, t2) :=
      match r with
      | inl e => let '(rh, sh, th) := handler e s1 in (rh, sh, t1 ++ th)
      | inr a => (inr a, s1, t1)
      end in
    let '(rf, s3, t3) := fin s2 in
    (match rf with inl e => inl e | inr _ => r' end, s3, t2 ++ t3).

End Handlers.

Declare Scope handler_scope.
Delimit Scope handler_scope with handler.
Notation "x <- m ;; k" := (bind m (fun x => k))
  (at level 61, m at next level, right associativity) : handler_scope.
Notation "m ;; k" := (bind m (fun _ => k))
  (at level 61, right associativity) : handler_scope.

Section Component.
Context {Thrown : Type} `{Services Thrown}.
Local Abbreviation M := (M Thrown).
Local Open Scope handler_scope.

Definition setOriginalImageFile (f : File) : M unit := emit (SetOriginalImageFile f).
Definition setEditedImage (v : option jsstring) : M unit := emit (SetEditedImage v).
Definition setPrompt (p : jsstring) : M unit := emit (SetPrompt p).
Definition setIsLoading (b : bool) : M unit := emit (SetIsLoading b).
Definition setError (m : option jsstring) : M unit := emit (SetError m).

Definition callFileToBase64 (f : File) : M Encoded :=
  emit (CallFileToBase64 f) ;; await (fileToBase64 f).

Definition callEditImageWithPrompt (b64 mime instruction : jsstring) : M jsstring :=
  emit (CallEditImageWithPrompt b64 mime instruction) ;;
  await (editImageWithPrompt b64 mime instruction).

Definition msgNoImage : jsstring := lit "Please upload an image first.".
Definition msgNoInstruction : jsstring := lit "Please enter an editing instruction.".
Definition msgUnknown : jsstring := lit "An unknown error occurred.".

(** The template literal of line 69. *)
Definition dataUrl (mime payload : jsstring) : jsstring :=
  lit "data:" ++ mime ++ lit ";base64," ++ payload.

(** [err.message || "An unknown error occurred."] (line 72); the read of
    [err.message] may raise. *)
Definition errorText (e : Thrown) : Thrown + jsstring :=
  match message e with
  | inl t => inl t
  | inr m => inr (orElse m msgUnknown)
  end.

(** [handleImageChange] (lines 43-50); the argument is
    [event.target.files?.[0]]. *)
Definition handleImageChange (file : option File) : M unit :=
  match file with
  | Some f =>
      setOriginalImageFile f ;;
      setEditedImage None ;;
      setError None
  | None => ret tt
  end.

(** [handleSubmit], lines 53-64: the part that runs before the first
    [await].  It answers the file and prompt the rest of the call goes on
    with, or [None] when it returned early. *)
Definition handleSubmitSync : M (option (File * jsstring)) :=
  s <- get ;;
  match originalImageFile s with
  | None =>
      setError (Some msgNoImage) ;;
      ret None
  | Some file =>
      if negb (truthy (trim (prompt s))) then
        setError (Some msgNoInstruction) ;;
        ret None
      else
        setIsLoading true ;;
        setError None ;;
        setEditedImage None ;;
        ret (Some (file, prompt s))
  end.

(** [handleSubmit], lines 66-75: the [try]/[catch]/[finally] block, run on
    the state current when the awaited promises have settled. *)
Definition handleSubmitAsync (c : File * jsstring) : M unit :=
  let '(file, instruction) := c in
  tryCatchFinally
    (enc <- callFileToBase64 file ;;
     generatedImageBase64 <- callEditImageWithPrompt (base64 enc) (mimeType enc) instruction ;;
     setEditedImage (Some (dataUrl (mimeType enc) generatedImageBase64)))
    (fun e => text <- await (errorText e) ;; setError (Some text))
    (setIsLoading false).

(** [handleSubmit] (lines 52-76), run with nothing else interleaved. *)
Definition handleSubmit : M unit :=
  r <- handleSubmitSync ;;
  match r with
  | None => ret tt
  | Some c => handleSubmitAsync c
  end.

End Component.

(** Projections of a handler run. *)
Definition outcome {Thrown A} (r : (Thrown + A) * AppState * list Event) : Thrown + A :=
  fst (fst r).
Definition finalState {Thrown A} (r : (Thrown + A) * AppState * list Event) : AppState :=
  snd (fst r).
Definition trace {Thrown A} (r : (Thrown + A) * AppState * list Event) : list Event :=
  snd r.

(* ================================================================= *)
(** ** Phases of the session, read off the state

    The render shows the loader while [isLoading] holds (line 122) and
    disables the prompt and the submit button (lines 147, 151, 163);
    otherwise the session is interactive.  An interactive state that shows a
    result is a success, one that shows only an error a failure. *)

Definition inLoading (s : AppState) : bool := isLoading s.

Definition inIdle (s : AppState) : bool := negb (isLoading s).

Definition inSuccess (s : AppState) (result : jsstring) : Prop :=
  isLoading s = false /\ editedImage s = Some result /\ error s = None.

Definition inFailure (s : AppState) (msg : jsstring) : Prop :=
  isLoading s = false /\ editedImage s = None /\ error s = Some msg.

(** Loading never shows a stale error or a stale result. *)
Definition loadingClean (s : AppState) : Prop :=
  isLoading s = true -> error s = None /\ editedImage s = None.

(* ================================================================= *)
(** ** The session as the user drives it

    [handleSubmit] suspends at its [await]s; until the promises settle, other
    handlers may run.  A session is the component state together with the
    requests in flight, each with the file and prompt its closure captured.
    The state setters of one synchronous stretch of a handler take effect
    together, in one render, so the states of a session are those between
    such stretches. *)

Record Session := mkSession {
  ui : AppState;
  inflight : list (File * jsstring)
}.

Definition initialSession : Session :=
  {| ui := initialState; inflight := [] |}.

Inductive Action :=
| SelectImage (file : option File)   (* the file input's onChange, line 111 *)
| EditPrompt (p : jsstring)          (* the textarea or an example prompt, lines 143, 162 *)
| ClickGenerate                      (* the submit button's onClick, line 150 *)
| Settle (i : nat).                  (* the promises of the i-th request in flight settle *)

Fixpoint removeNth {A} (i : nat) (l : list A) : list A :=
  match i, l with
  | _, [] => []
  | O, _ :: r => r
  | S j, x :: r => x :: removeNth j r
  end.

Section Driving.
Context {Thrown : Type} `{Services Thrown}.

(** One user action or one settled request; [None] when the control is
    disabled (lines 147, 151, 163) or no such request is in flight. *)
Definition act (a : Action) (x : Session) : option Session :=
  match a with
  | SelectImage file =>
      Some {| ui := finalState (handleImageChange (Thrown:=Thrown) file (ui x)); inflight := inflight x |}
  | EditPrompt p =>
      if isLoading (ui x) then None
      else Some {| ui := finalState (setPrompt (Thrown:=Thrown) p (ui x)); inflight := inflight x |}
  | ClickGenerate =>
      if isLoading (ui x) || negb (isSome (originalImageFile (ui x)))
      then None
      else
        let r := handleSubmitSync (Thrown:=Thrown) (ui x) in
        Some {| ui := finalState r;
                inflight := match outcome r with
                            | inr (Some c) => inflight x ++ [c]
                            | _ => inflight x
                            end |}
  | Settle i =>
      match nth_error (inflight x) i with
      | Some c =>
          Some {| ui := finalState (handleSubmitAsync c (ui x));
                  inflight := removeNth i (inflight x) |}
      | None => None
      end
  end.

Fixpoint runActions (l : list Action) (x : Session) : option Session :=
  match l with
  | [] => Some x
  | a :: r =>
      match act a x with
      | Some y => runActions r y
      | None => None
      end
  end.

End Driving.

(* ================================================================= *)
(** ** The two services, after the specification *)

(** Modelled from the spec: the failure taxonomy of its sections 4 and 7
    (./utils/fileUtils and ./services/geminiService, which raise these
    failures, are not among the sources).  A failure has a kind and may carry
    a message. *)
Inductive FailureKind := ReadError | TransportError | NoImageInResponse.

Record Failure := mkFailure {
  kind : FailureKind;
  detail : option jsstring
}.

(** Modelled from the spec: the local file source of section 6, absent from
    the sources.  Reading a blob completes with its bytes or cannot
    complete. *)
Inductive ReadOutcome :=
| ReadCompletes
| ReadFails (msg : option jsstring).

Module ImageCodec.

(** Modelled from the spec: the radix-64 text encoding that section 4.1
    asks of ImageCodec (./utils/fileUtils is not among the sources), here the
    standard alphabet with [=] padding. *)
Definition pad : CodeUnit := 61%N.

Definition alphabet (i : N) : CodeUnit :=
  (if i <? 26 then 65 + i            (* A-Z *)
   else if i <? 52 then 97 + (i - 26)  (* a-z *)
   else if i <? 62 then 48 + (i - 52)  (* 0-9 *)
   else if i =? 62 then 43             (* + *)
   else 47)%N.                         (* / *)

Definition sextet (c : CodeUnit) : option N :=
  (if (65 <=? c) && (c <=? 90) then Some (c - 65)
   else if (97 <=? c) && (c <=? 122) then Some (c - 97 + 26)
   else if (48 <=? c) && (c <=? 57) then Some (c - 48 + 52)
   else if c =? 43 then Some 62
   else if c =? 47 then Some 63
   else None)%N.

(** Three bytes as one 24-bit number, and its four 6-bit digits. *)
Definition pack3 (a b c : N) : N := (a * 65536 + b * 256 + c)%N.
Definition pack4 (p q r s : N) : N := (p * 262144 + q * 4096 + r * 64 + s)%N.
Definition digit (k : N) (n : N) : CodeUnit := alphabet ((n / 64 ^ k) mod 64)%N.
Definition octet (k : N) (n : N) : option byte := Byte.of_N ((n / 256 ^ k) mod 256)%N.

(** Modelled from the spec: [encode] of section 4.1 on the raw bytes. *)
Fixpoint encode (bs : list byte) : jsstring :=
  match bs with
  | [] => []
  | [a] =>
      let n := pack3 (Byte.to_N a) 0 0 in
      [digit 3 n; digit 2 n; pad; pad]
  | [a; b] =>
      let n := pack3 (Byte.to_N a) (Byte.to_N b) 0 in
      [digit 3 n; digit 2 n; digit 1 n; pad]
  | a :: b :: c :: rest =>
      let n := pack3 (Byte.to_N a) (Byte.to_N b) (Byte.to_N c) in
      digit 3 n :: digit 2 n :: digit 1 n :: digit 0 n :: encode rest
  end.

Definition bytes1 (n : N) : option (list byte) :=
  match octet 2 n with
  | Some a => Some [a]
  | None => None
  end.

Definition bytes2 (n : N) : option (list byte) :=
  match octet 2 n, octet 1 n with
  | Some a, Some b => Some [a; b]
  | _, _ => None
  end.

Definition bytes3 (n : N) : option (list byte) :=
  match octet 2 n, octet 1 n, octet 0 n with
  | Some a, Some b, Some c => Some [a; b; c]
  | _, _, _ => None
  end.

(** Modelled from the spec: [decode] of sections 3 and 8, the inverse the
    round trip is stated with; [None] on text that is not an encoding. *)
Fixpoint decode (s : jsstring) : option (list byte) :=
  match s with
  | [] => Some []
  | c1 :: c2 :: c3 :: c4 :: rest =>
      match sextet c1, sextet c2 with
      | Some p, Some q =>
          if (c3 =? pad)%N then
            if (c4 =? pad)%N then
              match rest with
              | [] => bytes1 (pack4 p q 0 0)
              | _ :: _ => None
              end
            else None
          else
            match sextet c3 with
            | Some r =>
                if (c4 =? pad)%N then
                  match rest with
                  | [] => bytes2 (pack4 p q r 0)
                  | _ :: _ => None
                  end
                else
                  match sextet c4, decode rest with
                  | Some t, Some tail =>
                      match bytes3 (pack4 p q r t) with
                      | Some bs => Some (bs ++ tail)
                      | None => None
                      end
                  | _, _ => None
                  end
            | None => None
            end
      | _, _ => None
      end
  | _ => None
  end.

(** Modelled from the spec: ImageCodec.encode of section 4.1 (the
    [fileToBase64] of ./utils/fileUtils, not among the sources): the encoding
    of the blob's bytes with its declared media type, or ReadError. *)
Definition fileToBase64 (readBlob : File -> ReadOutcome) (f : File) : Failure + Encoded :=
  match readBlob f with
  | ReadCompletes => inr {| base64 := encode (fileBytes f); mimeType := fileType f |}
  | ReadFails msg => inl {| kind := ReadError; detail := msg |}
  end.

End ImageCodec.

Module EditRequestClient.

(** Modelled from the spec: a response part of section 4.2 and the
    glossary (./services/geminiService is not among the sources). *)
Inductive Part :=
| TextPart (text : jsstring)
| ImagePart (mediaType payload : jsstring)
| MetadataPart.

(** Modelled from the spec: the outcome of the single remote call. *)
Inductive RemoteOutcome :=
| Responded (parts : list Part)
| CallFailed (msg : option jsstring).

Record EditResult := mkEditResult {
  mediaType : jsstring;
  payload : jsstring
}.

Definition isImage (p : Part) : bool :=
  match p with
  | ImagePart _ _ => true
  | _ => false
  end.

(** Modelled from the spec: the response interpretation of section 4.2, a
    scan of the parts in order for the first image. *)
Fixpoint firstImage (parts : list Part) : option EditResult :=
  match parts with
  | [] => None
  | ImagePart m p :: _ => Some {| mediaType := m; payload := p |}
  | _ :: rest => firstImage rest
  end.

(** Modelled from the spec: EditRequestClient.requestEdit of section 4.2.
    [noImageText] is the message of the NoImageInResponse failure. *)
Definition requestEdit
    (remote : jsstring -> jsstring -> jsstring -> RemoteOutcome)
    (noImageText : jsstring)
    (image : Encoded) (instruction : jsstring) : Failure + EditResult :=
  match remote (base64 image) (mimeType image) instruction with
  | CallFailed msg => inl {| kind := TransportError; detail := msg |}
  | Responded parts =>
      match firstImage parts with
      | Some r => inr r
      | None => inl {| kind := NoImageInResponse; detail := Some noImageText |}
      end
  end.

(** Modelled from the spec: the [editImageWithPrompt] of
    ./services/geminiService as App.tsx calls it (line 68): the text it
    resolves to is used as the base64 payload of the result. *)
Definition editImageWithPrompt
    (remote : jsstring -> jsstring -> jsstring -> RemoteOutcome)
    (noImageText : jsstring)
    (b64 mime instruction : jsstring) : Failure + jsstring :=
  match requestEdit remote noImageText {| base64 := b64; mimeType := mime |} instruction with
  | inl e => inl e
  | inr r => inr (payload r)
  end.

End EditRequestClient.

(** The collaborators of section 6 and the client's message. *)
Record Collaborators := mkCollaborators {
  readBlob : File -> ReadOutcome;
  remoteEdit : jsstring -> jsstring -> jsstring -> EditRequestClient.RemoteOutcome;
  noImageText : jsstring
}.

(** The services of the component, as the specification describes them. *)
Definition specServices (w : Collaborators) : Services Failure :=
  {| message := fun e => inr (detail e);
     fileToBase64 := ImageCodec.fileToBase64 (readBlob w);
     editImageWithPrompt :=
       EditRequestClient.editImageWithPrompt (remoteEdit w) (noImageText w) |}.

(** What the client is asked when the selected file is submitted. *)
Definition requestFor (w : Collaborators) (f : File) (instruction : jsstring)
  : Failure + EditRequestClient.EditResult :=
  EditRequestClient.requestEdit (remoteEdit w) (noImageText w)
    {| base64 := ImageCodec.encode (fileBytes f); mimeType := fileType f |} instruction.

(* ================================================================= *)
(** ** Summary of a settled request *)

Section Settled.
Context {Thrown : Type} `{Services Thrown}.

(** What the [catch] and [finally] blocks leave behind for the rejection
    [e], after the service calls [calls]: the error is stored when the
    message can be read; when the read raises, nothing is stored and the
    raised value leaves the handler. *)
Definition caught (e : Thrown) (s : AppState) (calls : list Event)
  : (Thrown + unit) * AppState * list Event :=
  match errorText e with
  | inr text =>
      (inr tt,
       mkState (originalImageFile s) (editedImage s) (prompt s) false (Some text),
       calls ++ [SetError (Some text); SetIsLoading false])
  | inl t =>
      (inl t,
       mkState (originalImageFile s) (editedImage s) (prompt s) false (error s),
       calls ++ [SetIsLoading false])
  end.

(** What the [try] block leaves behind, by the way the promises settled. *)
Definition settled (f : File) (instruction : jsstring) (s : AppState)
  : (Thrown + unit) * AppState * list Event :=
  match fileToBase64 f with
  | inl e => caught e s [CallFileToBase64 f]
  | inr enc =>
      match editImageWithPrompt (base64 enc) (mimeType enc) instruction with
      | inl e =>
          caught e s
            [CallFileToBase64 f;
             CallEditImageWithPrompt (base64 enc) (mimeType enc) instruction]
      | inr g =>
          (inr tt,
           mkState (originalImageFile s) (Some (dataUrl (mimeType enc) g)) (prompt s)
                   false (error s),
           [CallFileToBase64 f;
            CallEditImageWithPrompt (base64 enc) (mimeType enc) instruction;
            SetEditedImage (Some (dataUrl (mimeType enc) g)); SetIsLoading false])
      end
  end.

End Settled.

(* ================================================================= *)
(** ** Sample sessions *)

Definition sampleJpeg : File :=
  {| fileName := lit "shoe.jpg"; fileType := lit "image/jpeg";
     fileBytes := [xff; xd8; xff; xe0; x00]%byte |}.

Definition samplePng : File :=
  {| fileName := lit "red.png"; fileType := lit "image/png";
     fileBytes := [x89; x50; x4e; x47]%byte |}.

Definition payloadP : jsstring := lit "iVBORw0KGgo=".

Definition sampleInstruction : jsstring := lit "Remove the background".

(** The remote answers with commentary, then a PNG, then a second image. *)
Definition worldOk : Collaborators :=
  {| readBlob := fun _ => ReadCompletes;
     remoteEdit := fun _ _ _ =>
       EditRequestClient.Responded
         [EditRequestClient.TextPart (lit "Here is your edit");
          EditRequestClient.ImagePart (lit "image/png") payloadP;
          EditRequestClient.ImagePart (lit "image/webp") (lit "UklGRg==")];
     noImageText := lit "No image was returned." |}.

(** The remote answers with text only. *)
Definition worldTextOnly : Collaborators :=
  {| readBlob := fun _ => ReadCompletes;
     remoteEdit := fun _ _ _ =>
       EditRequestClient.Responded
         [EditRequestClient.TextPart (lit "I can't edit this image")];
     noImageText := lit "No image was returned." |}.

(** The remote call cannot be completed. *)
Definition worldOffline : Collaborators :=
  {| readBlob := fun _ => ReadCompletes;
     remoteEdit := fun _ _ _ => EditRequestClient.CallFailed (Some (lit "Failed to fetch"));
     noImageText := lit "No image was returned." |}.

Definition readyState : AppState :=
  {| originalImageFile := Some sampleJpeg; editedImage := None;
     prompt := sampleInstruction; isLoading := false; error := None |}.

Definition blankPromptState : AppState :=
  {| originalImageFile := Some sampleJpeg; editedImage := Some (dataUrl (lit "image/jpeg") payloadP);
     prompt := lit "   "; isLoading := false; error := None |}.

Definition loadingSession : Session :=
  {| ui := {| originalImageFile := Some sampleJpeg; editedImage := None;
              prompt := sampleInstruction; isLoading := true; error := None |};
     inflight := [(sampleJpeg, sampleInstruction)] |}.

Definition startLoading : list Action :=
  [SelectImage (Some sampleJpeg); EditPrompt sampleInstruction; ClickGenerate].

(* ================================================================= *)
(** ** What the component renders

    The conditional parts of the JSX of lines 86-173, as a function of the
    state.  [createObjectURL] stands for [URL.createObjectURL] (line 38). *)

Inductive OriginalPanel :=
| OriginalImg (src : jsstring)    (* line 101 *)
| UploadHint.                     (* lines 103-106 *)

Inductive EditedPanel :=
| LoaderPanel                     (* line 123 *)
| EditedImg (src : jsstring)      (* line 125 *)
| ResultHint.                     (* lines 127-130 *)

Record View := mkView {
  originalPanel : OriginalPanel;
  editedPanel : EditedPanel;
  errorBanner : option jsstring;   (* line 139 *)
  promptValue : jsstring;          (* line 142 *)
  promptDisabled : bool;           (* line 147 *)
  generateDisabled : bool;         (* line 151 *)
  generateLabel : jsstring;        (* line 155 *)
  examplesDisabled : bool          (* line 163 *)
}.

(** Truthiness of a string that may be null. *)
Definition truthyOpt (v : option jsstring) : bool :=
  match v with
  | Some m => truthy m
  | None => false
  end.

Section Render.
Variable createObjectURL : File -> jsstring.

(** [originalImagePreview] (lines 36-41). *)
Definition originalImagePreview (s : AppState) : option jsstring :=
  match originalImageFile s with
  | Some f => Some (createObjectURL f)
  | None => None
  end.

Definition render (s : AppState) : View :=
  {| originalPanel :=
       match originalImagePreview s with
       | Some u => if truthy u then OriginalImg u else UploadHint
       | None => UploadHint
       end;
     editedPanel :=
       if isLoading s then LoaderPanel
       else match editedImage s with
            | Some u => if truthy u then EditedImg u else ResultHint
            | None => ResultHint
            end;
     errorBanner :=
       match error s with
       | Some m => if truthy m then Some m else None
       | None => None
       end;
     promptValue := prompt s;
     promptDisabled := isLoading s;
     generateDisabled := isLoading s || negb (isSome (originalImageFile s));
     generateLabel := if isLoading s then lit "Generating..." else lit "Generate";
     examplesDisabled := isLoading s |}.

End Render.

(* ================================================================= *)
(** ** Invariants of the session *)

(** A loading session has exactly one request in flight, submitted with the
    prompt still shown and with an image selected; a session that is not
    loading has none. *)
Definition oneInFlight (x : Session) : Prop :=
  if isLoading (ui x)
  then (exists f, inflight x = [(f, prompt (ui x))])
       /\ truthy (trim (prompt (ui x))) = true
       /\ isSome (originalImageFile (ui x)) = true
  else inflight x = [].

(** A stored error or result is never the empty string. *)
Definition storedNonEmpty (s : AppState) : Prop :=
  truthyOpt (error s) = isSome (error s)
  /\ truthyOpt (editedImage s) = isSome (editedImage s).

(** Exactly one of the result and the error is set. *)
Definition resultXorError (s : AppState) : Prop :=
  isSome (editedImage s) = negb (isSome (error s)).





(** A run ends one way: when it returns, exactly one of the result and the
    error is set; when a raised value leaves it, neither is. *)
Definition endsOneWay {Thrown A} (r : (Thrown + A) * AppState * list Event) : Prop :=
  match outcome r with
  | inr _ => resultXorError (finalState r)
  | inl _ => error (finalState r) = None /\ editedImage (finalState r) = None
  end.

(** The file cannot be read. *)
Definition worldUnreadable : Collaborators :=
  {| readBlob := fun _ => ReadFails None;
     remoteEdit := fun _ _ _ =>
       EditRequestClient.Responded
         [EditRequestClient.ImagePart (lit "image/png") (lit "iVBORw0KGgo=")];
     noImageText := lit "No image was returned." |}.

Definition sampleObjectURL (f : File) : jsstring := lit "blob:" ++ fileName f.

(* ================================================================= *)
(** * Properties *)

(* ----------------------------------------------------------------- *)
(** ** The codec: encoding round trip *)

Module ImageCodecFacts.
Import ImageCodec.
Local Open Scope N_scope.

Ltac divmod := zify; Z.to_euclidean_division_equations; lia.

Lemma sextet_alphabet (i : N) :
  i < 64 -> sextet (alphabet i) = Some i /\ (alphabet i =? pad) = false.
Proof.
  intros Hi. destruct i as [|p]; [split; reflexivity|].
  do 6 (try destruct p as [p|p|]); try (split; reflexivity); exfalso; lia.
Qed.

Lemma sextet_digit (k n : N) : sextet (digit k n) = Some ((n / 64 ^ k) mod 64).
Proof. apply sextet_alphabet, N.mod_lt. discriminate. Qed.

Lemma digit_not_pad (k n : N) : (digit k n =? pad) = false.
Proof. apply sextet_alphabet, N.mod_lt. discriminate. Qed.

Lemma octet_to_N (k n : N) (b : byte) :
  (n / 256 ^ k) mod 256 = Byte.to_N b -> octet k n = Some b.
Proof. unfold octet. intros ->. apply Byte.of_to_N. Qed.

Lemma byte_lt (b : byte) : Byte.to_N b < 256.
Proof. pose proof (Byte.to_N_bounded b). lia. Qed.

(** The digits of a full group give the three bytes back. *)
Lemma bytes3_digits (a b c : byte) :
  let n := pack3 (Byte.to_N a) (Byte.to_N b) (Byte.to_N c) in
  bytes3 (pack4 ((n / 64 ^ 3) mod 64) ((n / 64 ^ 2) mod 64)
                ((n / 64 ^ 1) mod 64) ((n / 64 ^ 0) mod 64)) = Some [a; b; c].
Proof.
  intros n. pose proof (byte_lt a). pose proof (byte_lt b). pose proof (byte_lt c).
  assert (E : pack4 ((n / 64 ^ 3) mod 64) ((n / 64 ^ 2) mod 64)
                    ((n / 64 ^ 1) mod 64) ((n / 64 ^ 0) mod 64) = n).
  { unfold pack4, n, pack3.
    change (64 ^ 3) with 262144; change (64 ^ 2) with 4096;
    change (64 ^ 1) with 64; change (64 ^ 0) with 1. divmod. }
  rewrite E. unfold bytes3.
  rewrite (@octet_to_N 2 n a), (@octet_to_N 1 n b), (@octet_to_N 0 n c); try reflexivity;
    unfold n, pack3;
    change (256 ^ 2) with 65536; change (256 ^ 1) with 256; change (256 ^ 0) with 1;
    divmod.
Qed.

(** Two bytes and one padding character. *)
Lemma bytes2_digits (a b : byte) :
  let n := pack3 (Byte.to_N a) (Byte.to_N b) 0 in
  bytes2 (pack4 ((n / 64 ^ 3) mod 64) ((n / 64 ^ 2) mod 64)
                ((n / 64 ^ 1) mod 64) 0) = Some [a; b].
Proof.
  intros n. pose proof (byte_lt a). pose proof (byte_lt b).
  assert (E : pack4 ((n / 64 ^ 3) mod 64) ((n / 64 ^ 2) mod 64)
                    ((n / 64 ^ 1) mod 64) 0 = n).
  { unfold pack4, n, pack3.
    change (64 ^ 3) with 262144; change (64 ^ 2) with 4096;
    change (64 ^ 1) with 64. divmod. }
  rewrite E. unfold bytes2.
  rewrite (@octet_to_N 2 n a), (@octet_to_N 1 n b); try reflexivity;
    unfold n, pack3;
    change (256 ^ 2) with 65536; change (256 ^ 1) with 256;
    divmod.
Qed.

(** One byte and two padding characters. *)
Lemma bytes1_digits (a : byte) :
  let n := pack3 (Byte.to_N a) 0 0 in
  bytes1 (pack4 ((n / 64 ^ 3) mod 64) ((n / 64 ^ 2) mod 64) 0 0) = Some [a].
Proof.
  intros n. pose proof (byte_lt a).
  assert (E : pack4 ((n / 64 ^ 3) mod 64) ((n / 64 ^ 2) mod 64) 0 0 = n).
  { unfold pack4, n, pack3.
    change (64 ^ 3) with 262144; change (64 ^ 2) with 4096. divmod. }
  rewrite E. unfold bytes1.
  rewrite (@octet_to_N 2 n a); try reflexivity.
  unfold n, pack3. change (256 ^ 2) with 65536. divmod.
Qed.

(** Induction on byte lists three bytes at a time, as [encode] recurses. *)
Lemma bytes_ind3 (P : list byte -> Prop) :
  P [] ->
  (forall a, P [a]) ->
  (forall a b, P [a; b]) ->
  (forall a b c rest, P rest -> P (a :: b :: c :: rest)) ->
  forall bs, P bs.
Proof.
  intros H0 H1 H2 H3 bs.
  enough (P bs /\ (forall a, P (a :: bs)) /\ (forall a b, P (a :: b :: bs))) by tauto.
  induction bs as [|c rest (IH0 & IH1 & IH2)].
  - auto.
  - repeat split; auto.
Qed.

Lemma decode_encode (bs : list byte) : decode (encode bs) = Some bs.
Proof.
  induction bs as [|a|a b|a b c rest IH] using bytes_ind3.
  - reflexivity.
  - cbn [encode decode].
    rewrite !sextet_digit, N.eqb_refl. apply bytes1_digits.
  - cbn [encode decode].
    rewrite !sextet_digit, digit_not_pad, N.eqb_refl. apply bytes2_digits.
  - cbn [encode decode].
    rewrite !sextet_digit, !digit_not_pad, IH, bytes3_digits. reflexivity.
Qed.

End ImageCodecFacts.

(* ----------------------------------------------------------------- *)
(** ** Trimming *)

Lemma trimStart_nil_iff (s : jsstring) :
  trimStart s = [] <-> forallb isWhiteSpace s = true.
Proof.
  induction s as [|c r IH]; cbn.
  - tauto.
  - destruct (isWhiteSpace c); cbn; [exact IH|].
    split; discriminate.
Qed.

Lemma trimStart_head (s : jsstring) :
  match trimStart s with
  | [] => True
  | c :: _ => isWhiteSpace c = false
  end.
Proof.
  induction s as [|c r IH]; cbn; [exact I|].
  destruct (isWhiteSpace c) eqn:E; [exact IH|exact E].
Qed.

Lemma forallb_rev {A} (p : A -> bool) (l : list A) :
  forallb p (rev l) = forallb p l.
Proof.
  induction l as [|a l IH]; cbn; [reflexivity|].
  rewrite forallb_app, IH. cbn. rewrite andb_true_r. apply andb_comm.
Qed.

(** A string trims to the empty string exactly when it consists of
    whitespace only (the empty string included). *)
Lemma trim_nil_iff (s : jsstring) :
  trim s = [] <-> forallb isWhiteSpace s = true.
Proof.
  unfold trim, trimEnd. split.
  - intros E.
    assert (E' : trimStart (rev (trimStart s)) = []).
    { destruct (trimStart (rev (trimStart s))) as [|x l]; [reflexivity|].
      cbn in E. destruct (rev l); discriminate. }
    apply trimStart_nil_iff in E'. rewrite forallb_rev in E'.
    pose proof (trimStart_head s) as Hh.
    destruct (trimStart s) as [|c r] eqn:Es.
    + now apply trimStart_nil_iff.
    + cbn in E'. rewrite Hh in E'. discriminate.
  - intros E. apply trimStart_nil_iff in E. rewrite E. reflexivity.
Qed.

Lemma truthy_trim_false (s : jsstring) :
  truthy (trim s) = false <-> forallb isWhiteSpace s = true.
Proof.
  rewrite <- trim_nil_iff. destruct (trim s); cbn; split; congruence.
Qed.

(* ----------------------------------------------------------------- *)
(** ** Runs of the handlers *)

Section HandlerRuns.
Context {Thrown : Type} `{Services Thrown}.

Lemma handleSubmitSync_no_image (s : AppState) :
  originalImageFile s = None ->
  handleSubmitSync (Thrown:=Thrown) s =
    (inr None,
     mkState None (editedImage s) (prompt s) (isLoading s) (Some msgNoImage),
     [SetError (Some msgNoImage)]).
Proof.
  intros E. unfold handleSubmitSync, bind, get. rewrite E. cbn. rewrite E. reflexivity.
Qed.

Lemma handleSubmitSync_blank (s : AppState) (f : File) :
  originalImageFile s = Some f ->
  truthy (trim (prompt s)) = false ->
  handleSubmitSync (Thrown:=Thrown) s =
    (inr None,
     mkState (Some f) (editedImage s) (prompt s) (isLoading s) (Some msgNoInstruction),
     [SetError (Some msgNoInstruction)]).
Proof.
  intros E B. unfold handleSubmitSync, bind, get. rewrite E, B. cbn. rewrite E. reflexivity.
Qed.

Lemma handleSubmitSync_go (s : AppState) (f : File) :
  originalImageFile s = Some f ->
  truthy (trim (prompt s)) = true ->
  handleSubmitSync (Thrown:=Thrown) s =
    (inr (Some (f, prompt s)),
     mkState (Some f) None (prompt s) true None,
     [SetIsLoading true; SetError None; SetEditedImage None]).
Proof.
  intros E B. unfold handleSubmitSync, bind, get. rewrite E, B. cbn. rewrite E. reflexivity.
Qed.

Lemma handleSubmitAsync_settled (f : File) (instruction : jsstring) (s : AppState) :
  handleSubmitAsync (f, instruction) s = settled f instruction s.
Proof.
  unfold handleSubmitAsync, settled, tryCatchFinally, callFileToBase64,
    callEditImageWithPrompt, bind, await, emit, setEditedImage, setError, setIsLoading.
  unfold caught.
  cbn. destruct (fileToBase64 f) as [e|enc]; cbn;
    [destruct (errorText e); reflexivity|].
  destruct (editImageWithPrompt (base64 enc) (mimeType enc) instruction) as [e|g];
    cbn; [destruct (errorText e)|]; reflexivity.
Qed.

Lemma handleSubmit_no_image (s : AppState) :
  originalImageFile s = None ->
  handleSubmit s =
    (inr tt,
     mkState None (editedImage s) (prompt s) (isLoading s) (Some msgNoImage),
     [SetError (Some msgNoImage)]).
Proof.
  intros E. unfold handleSubmit, bind. rewrite (handleSubmitSync_no_image s E). reflexivity.
Qed.

Lemma handleSubmit_blank (s : AppState) (f : File) :
  originalImageFile s = Some f ->
  truthy (trim (prompt s)) = false ->
  handleSubmit s =
    (inr tt,
     mkState (Some f) (editedImage s) (prompt s) (isLoading s) (Some msgNoInstruction),
     [SetError (Some msgNoInstruction)]).
Proof.
  intros E B. unfold handleSubmit, bind. rewrite (handleSubmitSync_blank s E B). reflexivity.
Qed.

Lemma handleSubmit_go (s : AppState) (f : File) :
  originalImageFile s = Some f ->
  truthy (trim (prompt s)) = true ->
  handleSubmit s =
    let '(r, s', t) := settled f (prompt s) (mkState (Some f) None (prompt s) true None) in
    (r, s', [SetIsLoading true; SetError None; SetEditedImage None] ++ t).
Proof.
  intros E B. unfold handleSubmit, bind at 1.
  rewrite (handleSubmitSync_go s E B), handleSubmitAsync_settled.
  destruct (settled _ _ _) as [[r s'] t]. reflexivity.
Qed.

Lemma caught_not_loading (e : Thrown) (s : AppState) (calls : list Event) :
  isLoading (finalState (caught e s calls)) = false.
Proof. unfold caught. destruct (errorText e); reflexivity. Qed.

Lemma settled_not_loading (f : File) (p : jsstring) (s : AppState) :
  isLoading (finalState (settled f p s)) = false.
Proof.
  unfold settled. destruct (fileToBase64 f) as [e|enc]; [apply caught_not_loading|].
  destruct (editImageWithPrompt _ _ _); [apply caught_not_loading|reflexivity].
Qed.

(** An accepted submit on which a service rejects with [e]. *)
Lemma handleSubmit_rejected (s : AppState) (f : File) (e : Thrown) :
  originalImageFile s = Some f ->
  truthy (trim (prompt s)) = true ->
  (fileToBase64 f = inl e \/
   exists enc, fileToBase64 f = inr enc /\
               editImageWithPrompt (base64 enc) (mimeType enc) (prompt s) = inl e) ->
  exists calls,
    handleSubmit s =
      let '(r, s', t) := caught e (mkState (Some f) None (prompt s) true None) calls in
      (r, s', [SetIsLoading true; SetError None; SetEditedImage None] ++ t).
Proof.
  intros E B Hfail. rewrite (handleSubmit_go s E B). unfold settled.
  destruct Hfail as [Hc|(enc & Hc & Hr)]; rewrite Hc; [eexists; reflexivity|].
  rewrite Hr. eexists; reflexivity.
Qed.

End HandlerRuns.

(* ----------------------------------------------------------------- *)
(** ** The handlers of the component *)

Section ComponentFacts.
Context {Thrown : Type} `{Services Thrown}.

(** The state [handleSubmit] ends in is the one its state setters give, in
    the order of the trace. *)
Lemma handleSubmit_replay (s : AppState) :
  finalState (handleSubmit s) = replay s (trace (handleSubmit s)).
Proof.
  destruct (originalImageFile s) as [f|] eqn:E.
  - destruct (truthy (trim (prompt s))) eqn:B.
    + rewrite (handleSubmit_go s E B). unfold settled, caught.
      destruct (fileToBase64 f) as [e|enc];
        [destruct (errorText e); cbn; rewrite E; reflexivity|].
      destruct (editImageWithPrompt _ _ _) as [e|g];
        [destruct (errorText e)|]; cbn; rewrite E; reflexivity.
    + rewrite (handleSubmit_blank s E B). cbn. rewrite E. reflexivity.
  - rewrite (handleSubmit_no_image s E). cbn. rewrite E. reflexivity.
Qed.

(** C2. A submit with no image selected, or with a prompt that is empty or
    whitespace only, performs the single state update [setError] with the
    message of the first failing check (the image is checked first), calls
    neither service, and leaves the loading flag, the image, the prompt and
    the result as they were. *)
Theorem submit_precondition_failure (s : AppState) :
  originalImageFile s = None \/ forallb isWhiteSpace (prompt s) = true ->
  let msg := if isSome (originalImageFile s) then msgNoInstruction else msgNoImage in
  handleSubmit s =
    (inr tt,
     mkState (originalImageFile s) (editedImage s) (prompt s) (isLoading s) (Some msg),
     [SetError (Some msg)])
  /\ existsb isCall (trace (handleSubmit s)) = false
  /\ inIdle (finalState (handleSubmit s)) = inIdle s.
Proof.
  intros Hpre msg.
  assert (E : handleSubmit s =
    (inr tt,
     mkState (originalImageFile s) (editedImage s) (prompt s) (isLoading s) (Some msg),
     [SetError (Some msg)])).
  { subst msg. destruct (originalImageFile s) as [f|] eqn:E.
    - destruct Hpre as [Hn|Hb]; [discriminate|].
      apply truthy_trim_false in Hb.
      exact (handleSubmit_blank s E Hb).
    - exact (handleSubmit_no_image s E). }
  rewrite E. repeat split.
Qed.

(** C3. A submit whose checks pass first enters Loading with the error and
    the result cleared, then calls [fileToBase64] on the selected file, and,
    when that resolves, [editImageWithPrompt] on the encoding, its media type
    and the current prompt; no other service call is made.  After a
    rejection the error is set when its message can be read, and the loading
    flag is cleared last in every case. *)
Theorem submit_sequence (s : AppState) (f : File) :
  originalImageFile s = Some f ->
  truthy (trim (prompt s)) = true ->
  handleSubmitSync (Thrown:=Thrown) s =
    (inr (Some (f, prompt s)),
     mkState (Some f) None (prompt s) true None,
     [SetIsLoading true; SetError None; SetEditedImage None])
  /\ trace (handleSubmit s) =
       [SetIsLoading true; SetError None; SetEditedImage None; CallFileToBase64 f] ++
       match fileToBase64 f with
       | inl e =>
           match errorText e with
           | inr text => [SetError (Some text); SetIsLoading false]
           | inl _ => [SetIsLoading false]
           end
       | inr enc =>
           CallEditImageWithPrompt (base64 enc) (mimeType enc) (prompt s) ::
           match editImageWithPrompt (base64 enc) (mimeType enc) (prompt s) with
           | inl e =>
               match errorText e with
               | inr text => [SetError (Some text); SetIsLoading false]
               | inl _ => [SetIsLoading false]
               end
           | inr g => [SetEditedImage (Some (dataUrl (mimeType enc) g)); SetIsLoading false]
           end
       end.
Proof.
  intros E B. split; [exact (handleSubmitSync_go s E B)|].
  rewrite (handleSubmit_go s E B). unfold settled, caught.
  destruct (fileToBase64 f) as [e|enc]; [destruct (errorText e); reflexivity|].
  destruct (editImageWithPrompt _ _ _) as [e|g]; [destruct (errorText e)|]; reflexivity.
Qed.

(** C1, as the code has it.  After a submit on which both services resolve,
    the stored result is the data URL made of the media type [fileToBase64]
    reported for the selected file and of the text [editImageWithPrompt]
    resolved to, unchanged; the session is not loading and shows no error. *)
Theorem edit_result_stored (s : AppState) (f : File) (enc : Encoded) (g : jsstring) :
  originalImageFile s = Some f ->
  truthy (trim (prompt s)) = true ->
  fileToBase64 f = inr enc ->
  editImageWithPrompt (base64 enc) (mimeType enc) (prompt s) = inr g ->
  outcome (handleSubmit s) = inr tt
  /\ finalState (handleSubmit s) =
       mkState (Some f)
               (Some (lit "data:" ++ mimeType enc ++ lit ";base64," ++ g))
               (prompt s) false None.
Proof.
  intros E B Hc Hr.
  rewrite (handleSubmit_go s E B). unfold settled. rewrite Hc, Hr. split; reflexivity.
Qed.

(** C5, as the code has it.  Selecting a file stores it, clears the result
    and the error, and leaves the prompt and the loading flag untouched: the
    session is idle afterwards exactly when it was not loading before. *)
Theorem select_image_clears (s : AppState) (f : File) :
  handleImageChange (Thrown:=Thrown) (Some f) s =
    (inr tt,
     mkState (Some f) None (prompt s) (isLoading s) None,
     [SetOriginalImageFile f; SetEditedImage None; SetError None])
  /\ inIdle (finalState (handleImageChange (Thrown:=Thrown) (Some f) s))
     = negb (inLoading s).
Proof. split; reflexivity. Qed.

(** C10. A selection event that carries no file changes nothing: no state
    setter runs, so the selected image, the result, the error, the prompt
    and the loading flag all stay as they were. *)
Theorem cancelled_selection_keeps_state (s : AppState) :
  handleImageChange (Thrown:=Thrown) None s = (inr tt, s, []).
Proof. reflexivity. Qed.

(* ----------------------------------------------------------------- *)
(** ** The session invariant *)

Lemma act_loadingClean (a : Action) (x y : Session) :
  loadingClean (ui x) -> act a x = Some y -> loadingClean (ui y).
Proof.
  intros Hx Ha. destruct a as [[f|]|p| |i]; unfold act in Ha.
  - injection Ha as <-. intros _. split; reflexivity.
  - injection Ha as <-. exact Hx.
  - destruct (isLoading (ui x)) eqn:L; [discriminate|].
    injection Ha as <-. intros L'. cbn in L'. congruence.
  - destruct (isLoading (ui x)) eqn:L; [discriminate|].
    destruct (originalImageFile (ui x)) as [f|] eqn:E; [|discriminate].
    cbn [orb negb isSome] in Ha. cbv zeta in Ha.
    destruct (truthy (trim (prompt (ui x)))) eqn:B.
    + rewrite (handleSubmitSync_go (ui x) E B) in Ha.
      injection Ha as <-. intros _. split; reflexivity.
    + rewrite (handleSubmitSync_blank (ui x) E B) in Ha.
      injection Ha as <-. intros L'. cbn in L'. congruence.
  - destruct (nth_error (inflight x) i) as [c|]; [|discriminate].
    injection Ha as <-. cbn [ui]. destruct c as [f p].
    rewrite handleSubmitAsync_settled.
    intros L'. rewrite settled_not_loading in L'. discriminate L'.
Qed.

(** C9. No action of the session (selecting an image, editing the prompt,
    submitting, a request settling) leads from a state in which Loading
    excludes an error and a result to one in which it does not; so in every
    state reached from the initial one, a loading session has neither an
    error nor a result. *)
Theorem loading_never_stale (l : list Action) (x y : Session) :
  loadingClean (ui x) ->
  runActions l x = Some y ->
  loadingClean (ui y).
Proof.
  revert x. induction l as [|a l IH]; intros x Hx Hr; cbn in Hr.
  - injection Hr as <-. exact Hx.
  - destruct (act a x) as [z|] eqn:Ha; [|discriminate].
    exact (IH z (act_loadingClean a x Hx Ha) Hr).
Qed.

End ComponentFacts.

(* ----------------------------------------------------------------- *)
(** ** The services after the specification *)

Module EditRequestClientFacts.
Import EditRequestClient.

Lemma firstImage_first (pre post : list Part) (m p : jsstring) :
  forallb (fun x => negb (isImage x)) pre = true ->
  firstImage (pre ++ ImagePart m p :: post) = Some {| mediaType := m; payload := p |}.
Proof.
  induction pre as [|x pre IH]; cbn; [reflexivity|].
  intros Hx. apply andb_prop in Hx as [Hx Hpre].
  destruct x; cbn in Hx; try discriminate; exact (IH Hpre).
Qed.

Lemma firstImage_none (parts : list Part) :
  forallb (fun x => negb (isImage x)) parts = true ->
  firstImage parts = None.
Proof.
  induction parts as [|x r IH]; cbn; [reflexivity|].
  intros Hx. apply andb_prop in Hx as [Hx Hr].
  destruct x; cbn in Hx; try discriminate; exact (IH Hr).
Qed.

End EditRequestClientFacts.

(** C6. Whenever the blob can be read, the codec yields an encoding (it is a
    function of the blob: total and deterministic), the encoding carries the
    blob's declared media type, and decoding its payload gives back exactly
    the blob's bytes. *)
Theorem codec_round_trip (name type : jsstring) (B : list byte) :
  exists enc,
    ImageCodec.fileToBase64 (fun _ => ReadCompletes) (mkFile name type B) = inr enc
    /\ mimeType enc = type
    /\ base64 enc = ImageCodec.encode B
    /\ ImageCodec.decode (base64 enc) = Some B.
Proof.
  exists {| base64 := ImageCodec.encode B; mimeType := type |}.
  repeat split. apply ImageCodecFacts.decode_encode.
Qed.

Section SpecServices.
Variable w : Collaborators.
Local Abbreviation submit s := (handleSubmit (H:=specServices w) s).

(** C7. When the response has an image part, the client returns the first
    one in response order, whatever non-image parts come before it and
    whatever follows, and the session ends in Success: [handleSubmit]
    returns, the session is not loading and shows no error, and the result
    stored is the text "data:", the selected file's media type, ";base64,"
    and that first part's payload, in this order. *)
Theorem first_image_part_wins (s : AppState) (f : File)
    (pre post : list EditRequestClient.Part) (m p : jsstring) :
  originalImageFile s = Some f ->
  truthy (trim (prompt s)) = true ->
  readBlob w f = ReadCompletes ->
  remoteEdit w (ImageCodec.encode (fileBytes f)) (fileType f) (prompt s)
    = EditRequestClient.Responded (pre ++ EditRequestClient.ImagePart m p :: post) ->
  forallb (fun x => negb (EditRequestClient.isImage x)) pre = true ->
  requestFor w f (prompt s)
    = inr {| EditRequestClient.mediaType := m; EditRequestClient.payload := p |}
  /\ outcome (submit s) = inr tt
  /\ finalState (submit s) =
       mkState (Some f)
               (Some (lit "data:" ++ fileType f ++ lit ";base64," ++ p))
               (prompt s) false None
  /\ inSuccess (finalState (submit s))
               (lit "data:" ++ fileType f ++ lit ";base64," ++ p).
Proof.
  intros E B Hread Hresp Hpre.
  assert (Hreq : requestFor w f (prompt s)
    = inr {| EditRequestClient.mediaType := m; EditRequestClient.payload := p |}).
  { unfold requestFor, EditRequestClient.requestEdit. cbn [base64 mimeType].
    rewrite Hresp, (@EditRequestClientFacts.firstImage_first pre post m p Hpre). reflexivity. }
  split; [exact Hreq|].
  rewrite (handleSubmit_go (H:=specServices w) s E B). unfold settled.
  cbn [fileToBase64 editImageWithPrompt specServices].
  unfold ImageCodec.fileToBase64. rewrite Hread. cbn [base64 mimeType].
  unfold EditRequestClient.editImageWithPrompt.
  fold (requestFor w f (prompt s)). rewrite Hreq.
  repeat split.
Qed.

(** C8. When the response has no image part, the client fails with
    NoImageInResponse and the session ends in Failure, with no result, the
    error being that failure's message (the fallback when it is empty). *)
Theorem no_image_part_fails (s : AppState) (f : File)
    (parts : list EditRequestClient.Part) :
  originalImageFile s = Some f ->
  truthy (trim (prompt s)) = true ->
  readBlob w f = ReadCompletes ->
  remoteEdit w (ImageCodec.encode (fileBytes f)) (fileType f) (prompt s)
    = EditRequestClient.Responded parts ->
  forallb (fun x => negb (EditRequestClient.isImage x)) parts = true ->
  requestFor w f (prompt s)
    = inl {| kind := NoImageInResponse; detail := Some (noImageText w) |}
  /\ outcome (submit s) = inr tt
  /\ inFailure (finalState (submit s)) (orElse (Some (noImageText w)) msgUnknown)
  /\ forall r, ~ inSuccess (finalState (submit s)) r.
Proof.
  intros E B Hread Hresp Hparts.
  assert (Hreq : requestFor w f (prompt s)
    = inl {| kind := NoImageInResponse; detail := Some (noImageText w) |}).
  { unfold requestFor, EditRequestClient.requestEdit. cbn [base64 mimeType].
    rewrite Hresp, (@EditRequestClientFacts.firstImage_none parts Hparts). reflexivity. }
  split; [exact Hreq|].
  rewrite (handleSubmit_go (H:=specServices w) s E B). unfold settled.
  cbn [fileToBase64 editImageWithPrompt specServices].
  unfold ImageCodec.fileToBase64. rewrite Hread. cbn [base64 mimeType].
  unfold EditRequestClient.editImageWithPrompt.
  fold (requestFor w f (prompt s)). rewrite Hreq.
  unfold caught, errorText. cbn [message specServices detail].
  split; [reflexivity|]. split; [repeat split|].
  intros r (_ & Hr & _). discriminate Hr.
Qed.

End SpecServices.

(* ----------------------------------------------------------------- *)
(** ** The claims on sample sessions *)

Lemma submit_precondition_failure_witness :
  forallb isWhiteSpace (prompt blankPromptState) = true
  /\ handleSubmit (H:=specServices worldOk) blankPromptState =
       (inr tt,
        mkState (Some sampleJpeg) (Some (dataUrl (lit "image/jpeg") payloadP))
                (lit "   ") false (Some (lit "Please enter an editing instruction.")),
        [SetError (Some (lit "Please enter an editing instruction."))]).
Proof.
  split; [reflexivity|].
  exact (proj1 (submit_precondition_failure (H:=specServices worldOk) blankPromptState
                  (or_intror eq_refl))).
Defined.

Lemma submit_sequence_witness :
  trace (handleSubmit (H:=specServices worldOk) readyState) =
    [SetIsLoading true; SetError None; SetEditedImage None;
     CallFileToBase64 sampleJpeg;
     CallEditImageWithPrompt (ImageCodec.encode (fileBytes sampleJpeg))
       (lit "image/jpeg") sampleInstruction;
     SetEditedImage (Some (dataUrl (lit "image/jpeg") payloadP));
     SetIsLoading false].
Proof.
  exact (proj2 (submit_sequence (H:=specServices worldOk) readyState
                  (f:=sampleJpeg) eq_refl eq_refl)).
Defined.

Lemma edit_result_stored_witness :
  finalState (handleSubmit (H:=specServices worldOk) readyState) =
    mkState (Some sampleJpeg)
            (Some (lit "data:image/jpeg;base64,iVBORw0KGgo="))
            sampleInstruction false None.
Proof.
  exact (proj2 (edit_result_stored (H:=specServices worldOk) readyState
                  (f:=sampleJpeg)
                  (enc:={| base64 := ImageCodec.encode (fileBytes sampleJpeg);
                           mimeType := lit "image/jpeg" |})
                  (g:=payloadP) eq_refl eq_refl eq_refl eq_refl)).
Defined.

(** C1 as stated fails: the remote's first image part is a PNG, the selected
    file a JPEG, and the stored result says image/jpeg. *)
Lemma edit_result_media_type_not_from_part :
  requestFor worldOk sampleJpeg sampleInstruction
    = inr {| EditRequestClient.mediaType := lit "image/png";
             EditRequestClient.payload := payloadP |}
  /\ editedImage (finalState (handleSubmit (H:=specServices worldOk) readyState))
     = Some (dataUrl (lit "image/jpeg") payloadP)
  /\ editedImage (finalState (handleSubmit (H:=specServices worldOk) readyState))
     <> Some (dataUrl (lit "image/png") payloadP).
Proof.
  split; [reflexivity|]. split; [reflexivity|].
  vm_compute. discriminate.
Qed.

(** C5 as stated fails for the Loading phase: a file selected while a
    request is in flight leaves the session loading. *)
Lemma select_image_while_loading :
  runActions (H:=specServices worldOk) startLoading initialSession = Some loadingSession
  /\ inLoading (ui loadingSession) = true
  /\ exists y,
       act (H:=specServices worldOk) (SelectImage (Some samplePng)) loadingSession = Some y
       /\ originalImageFile (ui y) = Some samplePng
       /\ inIdle (ui y) = false
       /\ inLoading (ui y) = true.
Proof.
  split; [reflexivity|]. split; [reflexivity|].
  eexists. split; [reflexivity|]. repeat split.
Qed.

Lemma first_image_part_wins_witness :
  finalState (handleSubmit (H:=specServices worldOk) readyState) =
    mkState (Some sampleJpeg)
            (Some (lit "data:image/jpeg;base64,iVBORw0KGgo="))
            sampleInstruction false None.
Proof.
  exact (proj1 (proj2 (proj2 (first_image_part_wins worldOk readyState (f:=sampleJpeg)
           [EditRequestClient.TextPart (lit "Here is your edit")]
           [EditRequestClient.ImagePart (lit "image/webp") (lit "UklGRg==")]
           (lit "image/png") payloadP
           eq_refl eq_refl eq_refl eq_refl eq_refl)))).
Defined.

Lemma no_image_part_fails_witness :
  inFailure (finalState (handleSubmit (H:=specServices worldTextOnly) readyState))
            (lit "No image was returned.").
Proof.
  exact (proj1 (proj2 (proj2 (no_image_part_fails worldTextOnly readyState (f:=sampleJpeg)
           (parts:=[EditRequestClient.TextPart (lit "I can't edit this image")])
           eq_refl eq_refl eq_refl eq_refl eq_refl)))).
Defined.

Lemma loading_never_stale_witness :
  runActions (H:=specServices worldOk) startLoading initialSession = Some loadingSession
  /\ isLoading (ui loadingSession) = true
  /\ loadingClean (ui loadingSession).
Proof.
  split; [reflexivity|]. split; [reflexivity|].
  refine (loading_never_stale (H:=specServices worldOk) startLoading
            initialSession (y:=loadingSession) _ eq_refl).
  intros L. discriminate L.
Defined.

(* ================================================================= *)
(** * Further properties of the component *)

(* ----------------------------------------------------------------- *)
(** ** One run of [handleSubmit] *)

Section SubmitFacts.
Context {Thrown : Type} `{Services Thrown}.

Lemma settled_calls_first (f : File) (p : jsstring) (s : AppState) :
  exists t, trace (settled f p s) = CallFileToBase64 f :: t.
Proof.
  unfold settled, caught.
  destruct (fileToBase64 f) as [e|enc]; [destruct (errorText e); eexists; reflexivity|].
  destruct (editImageWithPrompt _ _ _) as [e|g];
    [destruct (errorText e)|]; eexists; reflexivity.
Qed.

Lemma caught_frame (e : Thrown) (s : AppState) (calls : list Event) :
  originalImageFile (finalState (caught e s calls)) = originalImageFile s
  /\ prompt (finalState (caught e s calls)) = prompt s
  /\ editedImage (finalState (caught e s calls)) = editedImage s.
Proof. unfold caught. destruct (errorText e); repeat split. Qed.

Lemma settled_frame (f : File) (p : jsstring) (s : AppState) :
  originalImageFile (finalState (settled f p s)) = originalImageFile s
  /\ prompt (finalState (settled f p s)) = prompt s.
Proof.
  assert (C : forall e calls,
             originalImageFile (finalState (caught e s calls)) = originalImageFile s
             /\ prompt (finalState (caught e s calls)) = prompt s).
  { intros e calls. destruct (caught_frame e s calls) as (A & B & _). split; assumption. }
  unfold settled. destruct (fileToBase64 f) as [e|enc]; [apply C|].
  destruct (editImageWithPrompt _ _ _); [apply C|split; reflexivity].
Qed.

Lemma errorText_truthy (e : Thrown) (text : jsstring) :
  errorText e = inr text -> truthy text = true.
Proof.
  unfold errorText, orElse. destruct (message e) as [t|[[|c m]|]]; intros E;
    inversion E; reflexivity.
Qed.

Lemma caught_one_way (e : Thrown) (s : AppState) (calls : list Event) :
  error s = None -> editedImage s = None ->
  endsOneWay (caught e s calls).
Proof.
  intros He Hr. unfold endsOneWay, resultXorError, caught.
  destruct (errorText e); cbn; [split; assumption|rewrite Hr; reflexivity].
Qed.

(** From a state without error and result, a settled request sets exactly
    one of them when the handler returns, and neither when a raised value
    leaves it. *)
Lemma settled_one_way (f : File) (p : jsstring) (s : AppState) :
  error s = None -> editedImage s = None ->
  endsOneWay (settled f p s).
Proof.
  intros He Hr. unfold settled.
  destruct (fileToBase64 f) as [e|enc]; [apply caught_one_way; assumption|].
  destruct (editImageWithPrompt _ _ _); [apply caught_one_way; assumption|].
  unfold endsOneWay, resultXorError. cbn. rewrite He. reflexivity.
Qed.

(** X1. [handleSubmit] reaches the services exactly when an image is
    selected and the prompt has a code unit that is not whitespace. *)
Theorem submit_reaches_services_iff (s : AppState) :
  existsb isCall (trace (handleSubmit s))
  = isSome (originalImageFile s) && negb (forallb isWhiteSpace (prompt s)).
Proof.
  destruct (originalImageFile s) as [f|] eqn:E.
  - destruct (truthy (trim (prompt s))) eqn:B.
    + assert (W : forallb isWhiteSpace (prompt s) = false).
      { destruct (forallb isWhiteSpace (prompt s)) eqn:W; [|reflexivity].
        apply truthy_trim_false in W. congruence. }
      rewrite W, (handleSubmit_go s E B).
      destruct (settled_calls_first f (prompt s) (mkState (Some f) None (prompt s) true None))
        as [t Ht].
      destruct (settled _ _ _) as [[r s'] t']. cbn in Ht. subst t'. reflexivity.
    + rewrite (handleSubmit_blank s E B).
      apply truthy_trim_false in B. rewrite B. reflexivity.
  - rewrite (handleSubmit_no_image s E). reflexivity.
Qed.

(** X2. When [fileToBase64] rejects, the submit makes that one service call
    and never calls [editImageWithPrompt]. *)
Theorem codec_rejection_skips_remote (s : AppState) (f : File) (e : Thrown) :
  originalImageFile s = Some f ->
  truthy (trim (prompt s)) = true ->
  fileToBase64 f = inl e ->
  filter isCall (trace (handleSubmit s)) = [CallFileToBase64 f].
Proof.
  intros E B Hc. rewrite (handleSubmit_go s E B). unfold settled. rewrite Hc.
  unfold caught. destruct (errorText e); reflexivity.
Qed.

(** X3. A submit that passes both checks ends not loading, whatever the
    state showed before.  When [handleSubmit] returns, exactly one of the
    result and the error is set; when a raised value leaves it (the read of
    the rejection's message raised), neither is set. *)
Theorem accepted_submit_ends_one_way (s : AppState) (f : File) :
  originalImageFile s = Some f ->
  truthy (trim (prompt s)) = true ->
  isLoading (finalState (handleSubmit s)) = false
  /\ match outcome (handleSubmit s) with
     | inr _ => isSome (editedImage (finalState (handleSubmit s)))
                = negb (isSome (error (finalState (handleSubmit s))))
     | inl _ => error (finalState (handleSubmit s)) = None
                /\ editedImage (finalState (handleSubmit s)) = None
     end.
Proof.
  intros E B. rewrite (handleSubmit_go s E B).
  pose proof (settled_not_loading f (prompt s) (mkState (Some f) None (prompt s) true None)) as L.
  pose proof (@settled_one_way f (prompt s) (mkState (Some f) None (prompt s) true None)
                eq_refl eq_refl) as X.
  destruct (settled _ _ _) as [[r s'] t]. split; [exact L|exact X].
Qed.

(** X4. No run of [handleSubmit] changes the selected image or the prompt. *)
Theorem submit_keeps_file_and_prompt (s : AppState) :
  originalImageFile (finalState (handleSubmit s)) = originalImageFile s
  /\ prompt (finalState (handleSubmit s)) = prompt s.
Proof.
  destruct (originalImageFile s) as [f|] eqn:E.
  - destruct (truthy (trim (prompt s))) eqn:B.
    + rewrite (handleSubmit_go s E B).
      pose proof (settled_frame f (prompt s) (mkState (Some f) None (prompt s) true None)) as F.
      destruct (settled _ _ _) as [[r s'] t]. exact F.
    + rewrite (handleSubmit_blank s E B). split; reflexivity.
  - rewrite (handleSubmit_no_image s E). split; reflexivity.
Qed.

(** X5. An accepted submit depends on the selected image and the prompt
    only: two states that agree on these give the same run, whatever
    result, error or loading flag they held. *)
Theorem submit_forgets_history (s1 s2 : AppState) (f : File) :
  originalImageFile s1 = Some f ->
  originalImageFile s2 = Some f ->
  prompt s1 = prompt s2 ->
  truthy (trim (prompt s1)) = true ->
  handleSubmit s1 = handleSubmit s2.
Proof.
  intros E1 E2 P B1.
  assert (B2 : truthy (trim (prompt s2)) = true) by (rewrite <- P; exact B1).
  rewrite (handleSubmit_go s1 E1 B1), (handleSubmit_go s2 E2 B2), P. reflexivity.
Qed.

(** X12. When a service rejects during an accepted submit, the session ends
    not loading and without a result.  If the rejection's message can be
    read, [handleSubmit] returns and the error is that message when it is
    non-empty and "An unknown error occurred." otherwise; if reading it
    raises, the raised value leaves [handleSubmit] and no error is stored. *)
Theorem failures_caught (s : AppState) (f : File) (e : Thrown) :
  originalImageFile s = Some f ->
  truthy (trim (prompt s)) = true ->
  (fileToBase64 f = inl e \/
   exists enc, fileToBase64 f = inr enc /\
               editImageWithPrompt (base64 enc) (mimeType enc) (prompt s) = inl e) ->
  match message e with
  | inr m =>
      outcome (handleSubmit s) = inr tt
      /\ finalState (handleSubmit s) =
           mkState (Some f) None (prompt s) false
                   (Some (match m with
                          | Some (c :: r) => c :: r
                          | _ => lit "An unknown error occurred."
                          end))
  | inl t =>
      outcome (handleSubmit s) = inl t
      /\ finalState (handleSubmit s) = mkState (Some f) None (prompt s) false None
  end.
Proof.
  intros E B Hfail.
  destruct (handleSubmit_rejected s E B Hfail) as [calls ->].
  unfold caught, errorText, orElse.
  destruct (message e) as [t|[[|c r]|]]; split; reflexivity.
Qed.

End SubmitFacts.

(* ----------------------------------------------------------------- *)
(** ** The session under interleaved actions *)

Section SessionFacts.
Context {Thrown : Type} `{Services Thrown}.

Lemma act_select (file : option File) (x : Session) :
  act (SelectImage file) x =
    Some {| ui := match file with
                  | Some f => mkState (Some f) None (prompt (ui x)) (isLoading (ui x)) None
                  | None => ui x
                  end;
            inflight := inflight x |}.
Proof. destruct file; reflexivity. Qed.

Lemma act_editPrompt_inv (p : jsstring) (x y : Session) :
  act (EditPrompt p) x = Some y ->
  isLoading (ui x) = false
  /\ y = {| ui := mkState (originalImageFile (ui x)) (editedImage (ui x)) p
                          false (error (ui x));
            inflight := inflight x |}.
Proof.
  unfold act. destruct (isLoading (ui x)) eqn:L; [discriminate|].
  intros Ha. injection Ha as <-. split; [reflexivity|]. cbn. rewrite L. reflexivity.
Qed.

Lemma act_click_inv (x y : Session) :
  act ClickGenerate x = Some y ->
  isLoading (ui x) = false
  /\ exists f, originalImageFile (ui x) = Some f
     /\ ((truthy (trim (prompt (ui x))) = true
          /\ y = {| ui := mkState (Some f) None (prompt (ui x)) true None;
                    inflight := inflight x ++ [(f, prompt (ui x))] |})
         \/ (truthy (trim (prompt (ui x))) = false
             /\ y = {| ui := mkState (Some f) (editedImage (ui x)) (prompt (ui x)) false
                                     (Some msgNoInstruction);
                       inflight := inflight x |})).
Proof.
  unfold act. destruct (isLoading (ui x)) eqn:L; [discriminate|].
  destruct (originalImageFile (ui x)) as [f|] eqn:E; [|discriminate].
  cbn [orb negb isSome]. cbv zeta. intros Ha.
  split; [reflexivity|]. exists f. split; [reflexivity|].
  destruct (truthy (trim (prompt (ui x)))) eqn:B.
  - rewrite (handleSubmitSync_go (ui x) E B) in Ha. injection Ha as <-.
    left. split; reflexivity.
  - rewrite (handleSubmitSync_blank (ui x) E B) in Ha. injection Ha as <-.
    right. split; [reflexivity|]. cbn. rewrite L. reflexivity.
Qed.

Lemma act_settle_inv (i : nat) (x y : Session) :
  act (Settle i) x = Some y ->
  exists f p, nth_error (inflight x) i = Some (f, p)
    /\ y = {| ui := finalState (settled f p (ui x));
              inflight := removeNth i (inflight x) |}.
Proof.
  unfold act. destruct (nth_error (inflight x) i) as [c|]; [|discriminate].
  intros Ha. injection Ha as <-. destruct c as [f p]. exists f, p.
  rewrite handleSubmitAsync_settled. split; reflexivity.
Qed.

(** A property kept by every action holds along every run of actions. *)
Lemma runActions_invariant (P : Session -> Prop) :
  (forall a x y, P x -> act a x = Some y -> P y) ->
  forall l x y, P x -> runActions l x = Some y -> P y.
Proof.
  intros Hstep l. induction l as [|a l IH]; intros x y Hx Hr; cbn in Hr.
  - injection Hr as <-. exact Hx.
  - destruct (act a x) as [z|] eqn:Ha; [|discriminate].
    exact (IH z y (Hstep a x z Hx Ha) Hr).
Qed.

Lemma act_oneInFlight (a : Action) (x y : Session) :
  oneInFlight x -> act a x = Some y -> oneInFlight y.
Proof.
  unfold oneInFlight. intros Hx Ha. destruct a as [file|p| |i].
  - rewrite act_select in Ha. injection Ha as <-.
    destruct file as [g|]; [|exact Hx]. cbn.
    destruct (isLoading (ui x)); [|exact Hx].
    destruct Hx as (Hf & Hp & _). repeat split; assumption.
  - apply act_editPrompt_inv in Ha as [L ->]. rewrite L in Hx. exact Hx.
  - apply act_click_inv in Ha as (L & f & E & [[B ->]|[B ->]]); rewrite L in Hx; cbn.
    + rewrite Hx. repeat split; [exists f; reflexivity|exact B].
    + exact Hx.
  - apply act_settle_inv in Ha as (f & p & Hn & ->). cbn.
    rewrite settled_not_loading.
    destruct (isLoading (ui x)).
    + destruct Hx as ([g Hg] & _). rewrite Hg in Hn |- *.
      destruct i as [|i]; [reflexivity|]. destruct i; discriminate.
    + rewrite Hx in Hn. destruct i; discriminate.
Qed.

Lemma dataUrl_truthy (mime payload : jsstring) : truthy (dataUrl mime payload) = true.
Proof. reflexivity. Qed.

Lemma settled_storedNonEmpty (f : File) (p : jsstring) (s : AppState) :
  storedNonEmpty s -> storedNonEmpty (finalState (settled f p s)).
Proof.
  unfold storedNonEmpty. intros [He Hr].
  assert (C : forall e calls,
             truthyOpt (error (finalState (caught e s calls)))
             = isSome (error (finalState (caught e s calls)))
             /\ truthyOpt (editedImage (finalState (caught e s calls)))
                = isSome (editedImage (finalState (caught e s calls)))).
  { intros e calls. unfold caught. destruct (errorText e) as [t|text] eqn:T; cbn.
    - split; assumption.
    - rewrite (errorText_truthy e T). split; [reflexivity|exact Hr]. }
  unfold settled. destruct (fileToBase64 f) as [e|enc]; [apply C|].
  destruct (editImageWithPrompt _ _ _); [apply C|].
  cbn. split; [exact He|reflexivity].
Qed.

Lemma act_storedNonEmpty (a : Action) (x y : Session) :
  storedNonEmpty (ui x) -> act a x = Some y -> storedNonEmpty (ui y).
Proof.
  intros Hx Ha. destruct a as [file|p| |i].
  - rewrite act_select in Ha. injection Ha as <-.
    destruct file as [g|]; [split; reflexivity|exact Hx].
  - apply act_editPrompt_inv in Ha as [L ->]. exact Hx.
  - apply act_click_inv in Ha as (L & f & E & [[B ->]|[B ->]]).
    + split; reflexivity.
    + destruct Hx as [_ Hr]. split; [reflexivity|exact Hr].
  - apply act_settle_inv in Ha as (f & p & Hn & ->).
    apply settled_storedNonEmpty, Hx.
Qed.

Lemma act_keeps_file (a : Action) (x y : Session) :
  isSome (originalImageFile (ui x)) = true ->
  act a x = Some y ->
  isSome (originalImageFile (ui y)) = true.
Proof.
  intros Hx Ha. destruct a as [file|p| |i].
  - rewrite act_select in Ha. injection Ha as <-.
    destruct file as [g|]; [reflexivity|exact Hx].
  - apply act_editPrompt_inv in Ha as [L ->]. exact Hx.
  - apply act_click_inv in Ha as (L & f & E & [[B ->]|[B ->]]); reflexivity.
  - apply act_settle_inv in Ha as (f & p & Hn & ->). cbn [ui].
    destruct (settled_frame f p (ui x)) as [-> _]. exact Hx.
Qed.

Lemma reachable_oneInFlight (l : list Action) (x : Session) :
  runActions l initialSession = Some x -> oneInFlight x.
Proof.
  apply (runActions_invariant oneInFlight act_oneInFlight). reflexivity.
Qed.

Lemma reachable_loadingClean (l : list Action) (x : Session) :
  runActions l initialSession = Some x -> loadingClean (ui x).
Proof.
  apply (runActions_invariant (fun x => loadingClean (ui x)) act_loadingClean).
  intros L. discriminate L.
Qed.

Lemma reachable_storedNonEmpty (l : list Action) (x : Session) :
  runActions l initialSession = Some x -> storedNonEmpty (ui x).
Proof.
  apply (runActions_invariant (fun x => storedNonEmpty (ui x)) act_storedNonEmpty).
  split; reflexivity.
Qed.

(** X6. In every session reached from the initial one, at most one request
    is in flight: exactly one while loading (submitted with the prompt still
    shown, an image being selected), none otherwise. *)
Theorem one_request_in_flight (l : list Action) (x : Session) :
  runActions l initialSession = Some x ->
  oneInFlight x
  /\ List.length (inflight x) = if isLoading (ui x) then 1 else 0.
Proof.
  intros Hr. pose proof (reachable_oneInFlight l Hr) as Hx. split; [exact Hx|].
  unfold oneInFlight in Hx. destruct (isLoading (ui x)).
  - destruct Hx as ([f ->] & _). reflexivity.
  - rewrite Hx. reflexivity.
Qed.

(** X7. A reachable loading session can always settle its request, and only
    that one; afterwards it is not loading and nothing is in flight.  When
    the rest of [handleSubmit] returns, exactly one of the result and the
    error is set; when a raised value leaves it, neither is set. *)
Theorem loading_settles (l : list Action) (x : Session) :
  runActions l initialSession = Some x ->
  isLoading (ui x) = true ->
  (exists y f,
     inflight x = [(f, prompt (ui x))]
     /\ act (Settle 0) x = Some y
     /\ isLoading (ui y) = false
     /\ inflight y = []
     /\ match outcome (handleSubmitAsync (f, prompt (ui x)) (ui x)) with
        | inr _ => isSome (editedImage (ui y)) = negb (isSome (error (ui y)))
        | inl _ => error (ui y) = None /\ editedImage (ui y) = None
        end)
  /\ forall i, act (Settle (S i)) x = None.
Proof.
  intros Hr L.
  pose proof (reachable_oneInFlight l Hr) as Hone.
  pose proof (reachable_loadingClean l Hr L) as [He Hres].
  unfold oneInFlight in Hone. rewrite L in Hone. destruct Hone as ([f Hf] & _).
  split.
  - eexists. exists f. split; [exact Hf|]. split.
    + unfold act. rewrite Hf. cbn [nth_error]. rewrite handleSubmitAsync_settled.
      reflexivity.
    + cbn [ui inflight]. rewrite handleSubmitAsync_settled.
      split; [apply settled_not_loading|]. split; [reflexivity|].
      exact (settled_one_way f (prompt (ui x)) (ui x) He Hres).
  - intros i. unfold act. rewrite Hf. destruct i; reflexivity.
Qed.

(** X8. A file selected while a request is in flight does not reach that
    request: when it settles, the result shown is the one computed from the
    file and prompt that were submitted, beside the newly selected file. *)
Theorem selection_during_request_keeps_old_result
    (x : Session) (i : nat) (f g : File) (p : jsstring) (enc : Encoded) (r : jsstring) :
  nth_error (inflight x) i = Some (f, p) ->
  fileToBase64 f = inr enc ->
  editImageWithPrompt (base64 enc) (mimeType enc) p = inr r ->
  exists y,
    runActions [SelectImage (Some g); Settle i] x = Some y
    /\ originalImageFile (ui y) = Some g
    /\ editedImage (ui y) = Some (dataUrl (mimeType enc) r)
    /\ error (ui y) = None
    /\ isLoading (ui y) = false.
Proof.
  intros Hn Hc Hr. eexists. split.
  - cbn [runActions]. rewrite act_select. unfold act. cbn [inflight ui].
    rewrite Hn, handleSubmitAsync_settled. reflexivity.
  - unfold settled. rewrite Hc, Hr. repeat split.
Qed.

(** X9. Once an image is selected, no action of the session unselects it. *)
Theorem selected_image_stays (l : list Action) (x y : Session) :
  isSome (originalImageFile (ui x)) = true ->
  runActions l x = Some y ->
  isSome (originalImageFile (ui y)) = true.
Proof.
  apply (runActions_invariant
           (fun x => isSome (originalImageFile (ui x)) = true) act_keeps_file).
Qed.

End SessionFacts.

(* ----------------------------------------------------------------- *)
(** ** What is rendered *)

Section RenderFacts.
Context {Thrown : Type} `{Services Thrown}.
Variable createObjectURL : File -> jsstring.

(** The guards of the session's actions are the [disabled] attributes the
    component renders. *)
Lemma act_guards_are_rendered (x : Session) (p : jsstring) :
  (isSome (act ClickGenerate x) = negb (generateDisabled (render createObjectURL (ui x))))
  /\ (isSome (act (EditPrompt p) x) = negb (promptDisabled (render createObjectURL (ui x)))).
Proof.
  unfold act, render. cbn.
  destruct (isLoading (ui x)); [split; reflexivity|].
  destruct (originalImageFile (ui x)); split; reflexivity.
Qed.

(** X10. In every session reached from the initial one, what is stored is
    what is shown: the error banner shows the stored error, and outside
    Loading the result panel shows the stored result (the guards
    [error && ...] and [editedImage ? ... : ...] never hide a stored value,
    as no stored error or result is empty). *)
Theorem stored_values_are_rendered (l : list Action) (x : Session) :
  runActions l initialSession = Some x ->
  errorBanner (render createObjectURL (ui x)) = error (ui x)
  /\ editedPanel (render createObjectURL (ui x)) =
       if isLoading (ui x) then LoaderPanel
       else match editedImage (ui x) with
            | Some u => EditedImg u
            | None => ResultHint
            end.
Proof.
  intros Hr. destruct (reachable_storedNonEmpty l Hr) as [He Hres].
  unfold render. cbn. split.
  - destruct (error (ui x)) as [m|]; [|reflexivity]. cbn in He. rewrite He. reflexivity.
  - destruct (isLoading (ui x)); [reflexivity|].
    destruct (editedImage (ui x)) as [u|]; [|reflexivity]. cbn in Hres. rewrite Hres.
    reflexivity.
Qed.

(** X11. Whenever the submit button is rendered enabled, an image is
    selected and no request is loading, so [handleSubmit] never takes its
    first branch ("Please upload an image first."): it either reports the
    missing instruction or enters Loading. *)
Theorem enabled_button_never_asks_for_image (s : AppState) :
  generateDisabled (render createObjectURL s) = false ->
  isLoading s = false
  /\ exists f, originalImageFile s = Some f
     /\ (trace (handleSubmitSync (Thrown:=Thrown) s) = [SetError (Some msgNoInstruction)]
         \/ trace (handleSubmitSync (Thrown:=Thrown) s)
            = [SetIsLoading true; SetError None; SetEditedImage None]).
Proof.
  intros Hd. unfold render in Hd. cbn [generateDisabled] in Hd.
  apply orb_false_elim in Hd as [L Hf].
  split; [exact L|].
  destruct (originalImageFile s) as [f|] eqn:E; [|discriminate].
  exists f. split; [reflexivity|].
  destruct (truthy (trim (prompt s))) eqn:B.
  - right. rewrite (handleSubmitSync_go s E B). reflexivity.
  - left. rewrite (handleSubmitSync_blank s E B). reflexivity.
Qed.

End RenderFacts.

(* ----------------------------------------------------------------- *)
(** ** The further properties on sample sessions *)

Lemma codec_rejection_skips_remote_witness :
  filter isCall (trace (handleSubmit (H:=specServices worldUnreadable) readyState))
  = [CallFileToBase64 sampleJpeg].
Proof.
  exact (codec_rejection_skips_remote (H:=specServices worldUnreadable) readyState
           (f:=sampleJpeg) (e:={| kind := ReadError; detail := None |})
           eq_refl eq_refl eq_refl).
Defined.

Lemma accepted_submit_ends_one_way_witness :
  isLoading (finalState (handleSubmit (H:=specServices worldOffline) readyState)) = false
  /\ isSome (editedImage (finalState (handleSubmit (H:=specServices worldOffline) readyState)))
     = negb (isSome (error (finalState (handleSubmit (H:=specServices worldOffline)
                                                     readyState)))).
Proof.
  exact (accepted_submit_ends_one_way (H:=specServices worldOffline) readyState
           (f:=sampleJpeg) eq_refl eq_refl).
Defined.

Lemma submit_forgets_history_witness :
  handleSubmit (H:=specServices worldOk) readyState
  = handleSubmit (H:=specServices worldOk)
      (mkState (Some sampleJpeg) (Some (lit "data:image/jpeg;base64,AAAA"))
               sampleInstruction true (Some (lit "Failed to fetch"))).
Proof.
  exact (submit_forgets_history (H:=specServices worldOk) readyState
           (mkState (Some sampleJpeg) (Some (lit "data:image/jpeg;base64,AAAA"))
                    sampleInstruction true (Some (lit "Failed to fetch")))
           (f:=sampleJpeg) eq_refl eq_refl eq_refl eq_refl).
Defined.

Lemma one_request_in_flight_witness :
  runActions (H:=specServices worldOk) startLoading initialSession = Some loadingSession
  /\ List.length (inflight loadingSession) = 1.
Proof.
  split; [reflexivity|].
  exact (proj2 (one_request_in_flight (H:=specServices worldOk) startLoading
                  (x:=loadingSession) eq_refl)).
Defined.

Lemma loading_settles_witness :
  exists y f,
    inflight loadingSession = [(f, prompt (ui loadingSession))]
    /\ act (H:=specServices worldTextOnly) (Settle 0) loadingSession = Some y
    /\ isLoading (ui y) = false
    /\ inflight y = []
    /\ match outcome (handleSubmitAsync (H:=specServices worldTextOnly)
                       (f, prompt (ui loadingSession)) (ui loadingSession)) with
       | inr _ => isSome (editedImage (ui y)) = negb (isSome (error (ui y)))
       | inl _ => error (ui y) = None /\ editedImage (ui y) = None
       end.
Proof.
  exact (proj1 (loading_settles (H:=specServices worldTextOnly) startLoading
                  (x:=loadingSession) eq_refl eq_refl)).
Defined.

Lemma selection_during_request_keeps_old_result_witness :
  exists y,
    runActions (H:=specServices worldOk)
      [SelectImage (Some samplePng); Settle 0] loadingSession = Some y
    /\ originalImageFile (ui y) = Some samplePng
    /\ editedImage (ui y) = Some (lit "data:image/jpeg;base64,iVBORw0KGgo=")
    /\ error (ui y) = None
    /\ isLoading (ui y) = false.
Proof.
  exact (selection_during_request_keeps_old_result (H:=specServices worldOk)
           loadingSession 0 (f:=sampleJpeg) samplePng (p:=sampleInstruction)
           (enc:={| base64 := ImageCodec.encode (fileBytes sampleJpeg);
                    mimeType := lit "image/jpeg" |})
           (r:=payloadP) eq_refl eq_refl eq_refl).
Defined.

Lemma selected_image_stays_witness :
  runActions (H:=specServices worldOffline) [SelectImage None; Settle 0] loadingSession
  = Some {| ui := mkState (Some sampleJpeg) None sampleInstruction false
                          (Some (lit "Failed to fetch"));
            inflight := [] |}
  /\ isSome (originalImageFile
               (mkState (Some sampleJpeg) None sampleInstruction false
                        (Some (lit "Failed to fetch")))) = true.
Proof.
  split; [reflexivity|].
  exact (selected_image_stays (H:=specServices worldOffline)
           [SelectImage None; Settle 0] loadingSession
           (y:={| ui := mkState (Some sampleJpeg) None sampleInstruction false
                                (Some (lit "Failed to fetch"));
                  inflight := [] |})
           eq_refl eq_refl).
Defined.

Lemma stored_values_are_rendered_witness :
  errorBanner (render sampleObjectURL
                 (mkState (Some sampleJpeg) None sampleInstruction false
                          (Some (lit "Failed to fetch"))))
  = Some (lit "Failed to fetch").
Proof.
  exact (proj1 (stored_values_are_rendered (H:=specServices worldOffline) sampleObjectURL
                  (startLoading ++ [Settle 0])
                  (x:={| ui := mkState (Some sampleJpeg) None sampleInstruction false
                                       (Some (lit "Failed to fetch"));
                         inflight := [] |})
                  eq_refl)).
Defined.

Lemma enabled_button_never_asks_for_image_witness :
  generateDisabled (render sampleObjectURL readyState) = false
  /\ isLoading readyState = false.
Proof.
  split; [reflexivity|].
  exact (proj1 (enabled_button_never_asks_for_image (Thrown:=Failure) sampleObjectURL
                  readyState eq_refl)).
Defined.

Lemma failures_caught_witness :
  outcome (handleSubmit (H:=specServices worldOffline) readyState) = inr tt
  /\ finalState (handleSubmit (H:=specServices worldOffline) readyState) =
       mkState (Some sampleJpeg) None sampleInstruction false (Some (lit "Failed to fetch")).
Proof.
  refine (failures_caught (H:=specServices worldOffline) readyState
            (f:=sampleJpeg)
            (e:={| kind := TransportError; detail := Some (lit "Failed to fetch") |})
            eq_refl eq_refl _).
  right. eexists. split; reflexivity.
Defined.

(* ----------------------------------------------------------------- *)
(** ** Rejections that are not objects *)

